(** * Request models of [chromadb/server/fastapi/types.py]

    The module declares seven pydantic models ([AddEmbedding],
    [UpdateEmbedding], [QueryEmbedding], [GetEmbedding], [DeleteEmbedding],
    [CreateCollection], [UpdateCollection]).  Each class is a list of field
    declarations [name : type = Field(default, ...)]; the module defines no
    [@validator], no [@root_validator] and no [Config], and no [Field] carries
    a constraint ([gt], [ge], [min_items], [min_length], ...).

    A declaration has no behaviour of its own: what a payload is parsed to is
    what pydantic's [BaseModel] does with the declarations.  The module is
    written against pydantic 1.x (the comment in [AddEmbedding] about
    [Union[int, float]] describes the left-to-right union coercion of that
    series, and the [example=] keyword of [Field] is its idiom), so the
    embedding below is: the Python objects a decoded JSON body is made of,
    the validators pydantic 1.x attaches to the annotations used in the file,
    and one parsing function per class that reads the fields in declaration
    order and collects every error, as [validate_model] does. *)

From Stdlib Require Import ZArith List String Ascii Bool Lia.
From Stdlib Require Import Floats.
From Stdlib Require DecimalString.
Import ListNotations.

Local Open Scope string_scope.
Local Open Scope list_scope.

Set Implicit Arguments.
Set Warnings "-register-all".

(** ** Python objects *)

(** The objects [json.loads] builds, with [dict] keyed by any object (a JSON
    object has [str] keys; [dict(v)] on a list of pairs need not).  A [dict] is
    kept as its items in insertion order. *)
Inductive value : Type :=
| VNone
| VBool (b : bool)
| VInt (z : Z)
| VFloat (f : float)
| VStr (s : string)
| VList (l : list value)
| VDict (items : list (value * value)).

Definition dict := list (value * value).

(** [is_key name k]: the key [k] is the [str] [name]. *)
Definition is_key (name : string) (k : value) : bool :=
  match k with
  | VStr s => String.eqb name s
  | _ => false
  end.

(** [d.get(name)] *)
Fixpoint dict_get (name : string) (d : dict) : option value :=
  match d with
  | [] => None
  | (k, v) :: d' => if is_key name k then Some v else dict_get name d'
  end.

(** [d[name] = v]: the value of an existing key is replaced where it stands,
    a new key is added at the end. *)
Fixpoint dict_set (name : string) (v : value) (d : dict) : dict :=
  match d with
  | [] => [(VStr name, v)]
  | (k, w) :: d' =>
      if is_key name k then (k, v) :: d' else (k, w) :: dict_set name v d'
  end.

(** ** Validation errors *)

(** One step of an error location: a field name or a position in a list. *)
Inductive loc_item : Type :=
| LName (s : string)
| LIndex (i : nat).

Definition loc := list loc_item.

(** The pydantic error classes the validators of this file can raise. *)
Inductive error_kind : Type :=
| MissingError            (* field required *)
| NoneIsNotAllowedError   (* none is not an allowed value *)
| ListError               (* value is not a valid list *)
| DictError               (* value is not a valid dict *)
| StrError                (* str type expected *)
| IntegerError            (* value is not a valid integer *)
| BoolError               (* value could not be parsed to a boolean *)
| WrongConstantError      (* unexpected value; permitted: ... *)
| UnhashableTypeError.    (* unhashable type *)

Definition error := (loc * error_kind)%type.

(** The outcome of a validation: the value, or the errors in the order
    pydantic reports them ([ValidationError.errors()]). *)
Inductive result (A : Type) : Type :=
| Ok (a : A)
| Err (es : list error).

Arguments Ok {A} a.
Arguments Err {A} es.

Definition rmap {A B} (f : A -> B) (r : result A) : result B :=
  match r with
  | Ok a => Ok (f a)
  | Err es => Err es
  end.

(** Both sides are evaluated and their errors are kept, left first. *)
Definition rap {A B} (rf : result (A -> B)) (ra : result A) : result B :=
  match rf, ra with
  | Ok f, Ok a => Ok (f a)
  | Ok _, Err es => Err es
  | Err es, Ok _ => Err es
  | Err es1, Err es2 => Err (es1 ++ es2)
  end.

Declare Scope result_scope.
Delimit Scope result_scope with result.
Notation "f <$> r" := (rmap f r) (at level 61, left associativity) : result_scope.
Notation "rf <*> ra" := (rap rf ra) (at level 61, left associativity) : result_scope.
Local Open Scope result_scope.

Definition errors_of {A} (r : result A) : list error :=
  match r with Ok _ => [] | Err es => es end.

(** ** Conversions of the Python runtime *)

(** [str(z)] for an [int]. *)
Definition str_of_int (z : Z) : string :=
  DecimalString.NilZero.string_of_int (Z.to_int z).

(** [int(f)] for a [float]: truncation towards zero; [OverflowError] on an
    infinity and [ValueError] on a NaN are [None]. *)
Definition int_of_float (f : float) : option Z :=
  match Prim2SF f with
  | S754_zero _ => Some 0%Z
  | S754_infinity _ => None
  | S754_nan => None
  | S754_finite s m e =>
      let a := if (0 <=? e)%Z then (Zpos m * 2 ^ e)%Z
               else (Zpos m / 2 ^ (- e))%Z in
      Some (if s then (- a)%Z else a)
  end.

(** [s.lower()] on the ASCII letters. *)
Definition ascii_lower (c : ascii) : ascii :=
  let n := nat_of_ascii c in
  if andb (65 <=? n)%nat (n <=? 90)%nat then ascii_of_nat (n + 32) else c.

Fixpoint str_lower (s : string) : string :=
  match s with
  | EmptyString => EmptyString
  | String c s' => String (ascii_lower c) (str_lower s')
  end.

(** The conversions of the Python runtime that the validators call and that
    are not written out here: [repr] of a [float] (shortest round-trip
    decimal), [int] of a [str] (spaces, sign, digits and underscores of any
    script) and [dict] of an object that is not a [dict] (an iterable of
    pairs).  [None] stands for the [TypeError] or [ValueError] raised. *)
Record Builtins : Type := {
  str_of_float : float -> string;
  int_of_str : string -> option Z;
  dict_of_iterable : value -> option dict
}.

(** ** The validators pydantic attaches to the annotations of the file *)

(** A validator receives the location it reports errors at and the object. *)
Definition validator (A : Type) : Type := loc -> value -> result A.

Definition fail {A} (l : loc) (k : error_kind) : result A := Err [(l, k)].

(** [ModelField.validate] on [None] when the annotation does not allow it;
    the validators of the type are not run. *)
Definition not_none {A} (v : validator A) : validator A :=
  fun l x =>
    match x with
    | VNone => fail l NoneIsNotAllowedError
    | _ => v l x
    end.

(** The elements of a list, each at its index; every element is validated and
    the errors of all of them are reported ([_validate_sequence_like]). *)
Fixpoint validate_items {A} (elem : validator A) (l : loc) (i : nat)
    (xs : list value) : result (list A) :=
  match xs with
  | [] => Ok []
  | x :: xs' =>
      cons <$> elem (l ++ [LIndex i]) x <*> validate_items elem l (S i) xs'
  end.

Section Validators.

Variable py : Builtins.

(** The validator functions take the object and return the converted value
    or raise; [None] stands for the error each of them raises. *)

(** [str_validator]: a [str] as it is, an [int] (so a [bool] too) or a
    [float] through [str()]; raises [StrError]. *)
Definition str_validator (x : value) : option string :=
  match x with
  | VStr s => Some s
  | VBool b => Some (if b then "True" else "False")
  | VInt z => Some (str_of_int z)
  | VFloat f => Some (str_of_float py f)
  | _ => None
  end.

(** [int_validator]: an [int] that is not a [bool] as it is, anything else
    through [int()]; raises [IntegerError]. *)
Definition int_validator (x : value) : option Z :=
  match x with
  | VInt z => Some z
  | VBool b => Some (if b then 1%Z else 0%Z)
  | VFloat f => int_of_float f
  | VStr s => int_of_str py s
  | _ => None
  end.

(** [BOOL_TRUE] and [BOOL_FALSE], the [str] members. *)
Definition BOOL_TRUE : list string := ["1"; "on"; "t"; "true"; "y"; "yes"].
Definition BOOL_FALSE : list string := ["0"; "off"; "f"; "false"; "n"; "no"].

Definition str_in (s : string) (l : list string) : bool :=
  existsb (String.eqb s) l.

(** [bool_validator]: [True] and [False] as they are; a [str] lowered and
    looked up in the two sets; a number equal to 1 or to 0; raises
    [BoolError]. *)
Definition bool_validator (x : value) : option bool :=
  match x with
  | VBool b => Some b
  | VStr s =>
      if str_in (str_lower s) BOOL_TRUE then Some true
      else if str_in (str_lower s) BOOL_FALSE then Some false
      else None
  | VInt z =>
      if (z =? 1)%Z then Some true
      else if (z =? 0)%Z then Some false
      else None
  | VFloat f =>
      if PrimFloat.eqb f 1%float then Some true
      else if PrimFloat.eqb f 0%float then Some false
      else None
  | _ => None
  end.

(** [_apply_validators]: the error a validator raises is reported at the
    location of the object. *)
Definition apply_validator {A} (f : value -> option A) (k : error_kind)
    : validator A :=
  fun l x =>
    match f x with
    | Some a => Ok a
    | None => fail l k
    end.

(** [Any]: no validator, and [None] is allowed. *)
Definition t_any : validator value := fun _ x => Ok x.

Definition t_str : validator string :=
  not_none (apply_validator str_validator StrError).
Definition t_int : validator Z :=
  not_none (apply_validator int_validator IntegerError).
Definition t_bool : validator bool :=
  not_none (apply_validator bool_validator BoolError).

(** [Optional[T]] *)
Definition t_optional {A} (v : validator A) : validator (option A) :=
  fun l x =>
    match x with
    | VNone => Ok None
    | _ => Some <$> v l x
    end.

(** [List[T]]: of the objects of a JSON body only a [list] is
    [sequence_like]. *)
Definition t_list {A} (elem : validator A) : validator (list A) :=
  not_none (fun l x =>
    match x with
    | VList xs => validate_items elem l 0 xs
    | _ => fail l ListError
    end).

(** [Dict[Any, Any]]: [dict_validator] takes a [dict] as it is and tries
    [dict(v)] on anything else; keys and values are [Any], so every item is
    kept as it is. *)
Definition t_dict_any_any : validator dict :=
  not_none (fun l x =>
    match x with
    | VDict d => Ok d
    | _ =>
        match dict_of_iterable py x with
        | Some d => Ok d
        | None => fail l DictError
        end
    end).

(** [Literal[c1, ..., cn]] over [str] constants: the object is looked up in
    a [dict] of the constants, so a [list] or a [dict] (unhashable) raises
    [TypeError] and any other object that is not one of them is a wrong
    constant. *)
Definition t_literal (choices : list string) : validator string :=
  not_none (fun l x =>
    match x with
    | VStr s => if str_in s choices then Ok s else fail l WrongConstantError
    | VList _ => fail l UnhashableTypeError
    | VDict _ => fail l UnhashableTypeError
    | _ => fail l WrongConstantError
    end).

End Validators.

(** ** Fields *)

(** The first argument of [Field]: [...] or a default. *)
Inductive default (A : Type) : Type :=
| Required
| Default (a : A).

Arguments Required {A}.
Arguments Default {A} a.

(** One field of a model read from the payload ([validate_model]): an absent
    key is an error for a required field and gives the default, unvalidated,
    otherwise; a present key is validated at the field's name. *)
Definition Field {A} (d : default A) (name : string) (v : validator A)
    (p : dict) : result A :=
  match dict_get name p with
  | Some x => v [LName name] x
  | None =>
      match d with
      | Required => fail [LName name] MissingError
      | Default a => Ok a
      end
  end.

(** ** Types imported from [chromadb.api.types] *)

(** Modelled from the spec: [Include], imported from [chromadb.api.types],
    which is not part of the sources at hand.  The spec gives it as "an
    enumerated set drawn from {embeddings, metadatas, documents, distances}";
    as an annotation that is a list of these four constants. *)
Definition Include_choices : list string :=
  ["documents"; "embeddings"; "metadatas"; "distances"].

Definition Include : validator (list string) :=
  t_list (t_literal Include_choices).

(** Modelled from the spec: [CollectionMetadata], imported from
    [chromadb.api.types], which is not part of the sources at hand.  The spec
    gives it as a "mapping of arbitrary scalar values" that this layer does
    not look into; as an annotation that is a mapping with any keys and
    values. *)
Definition CollectionMetadata (py : Builtins) : validator dict :=
  t_dict_any_any py.

(** ** The models *)

(** Each class is a record of its fields, in the order of the declarations,
    and [parse], what constructing the model from the payload's items returns
    or raises. *)

Module AddEmbedding.

Record t : Type := {
  embeddings : option (list value);
  metadatas : option (list (option dict));
  documents : option (list (option string));
  ids : option (list string)
}.

(** [ids: List[str] = Field(None, ...)]: a field whose default is [None]
    is not required and allows [None], whatever its annotation. *)
Definition parse (py : Builtins) (p : dict) : result t :=
  Build_t
    <$> Field (Default None) "embeddings" (t_optional (t_list t_any)) p
    <*> Field (Default None) "metadatas"
          (t_optional (t_list (t_optional (t_dict_any_any py)))) p
    <*> Field (Default None) "documents"
          (t_optional (t_list (t_optional (t_str py)))) p
    <*> Field (Default None) "ids" (t_optional (t_list (t_str py))) p.

End AddEmbedding.

Module UpdateEmbedding.

Record t : Type := {
  embeddings : option (list value);
  metadatas : option (list (option dict));
  documents : option (list (option string));
  ids : list string
}.

Definition parse (py : Builtins) (p : dict) : result t :=
  Build_t
    <$> Field (Default None) "embeddings" (t_optional (t_list t_any)) p
    <*> Field (Default None) "metadatas"
          (t_optional (t_list (t_optional (t_dict_any_any py)))) p
    <*> Field (Default None) "documents"
          (t_optional (t_list (t_optional (t_str py)))) p
    <*> Field Required "ids" (t_list (t_str py)) p.

End UpdateEmbedding.

Module QueryEmbedding.

Record t : Type := {
  where_ : option dict;
  where_document : option dict;
  query_embeddings : list value;
  n_results : Z;
  include : list string
}.

Definition parse (py : Builtins) (p : dict) : result t :=
  Build_t
    <$> Field (Default None) "where" (t_optional (t_dict_any_any py)) p
    <*> Field (Default None) "where_document"
          (t_optional (t_dict_any_any py)) p
    <*> Field Required "query_embeddings" (t_list t_any) p
    <*> Field (Default 10%Z) "n_results" (t_int py) p
    <*> Field (Default ["metadatas"; "documents"; "distances"]) "include"
          Include p.

End QueryEmbedding.

Module GetEmbedding.

Record t : Type := {
  ids : option (list string);
  where_ : option dict;
  where_document : option dict;
  sort : option string;
  limit : option Z;
  offset : option Z;
  include : list string
}.

Definition parse (py : Builtins) (p : dict) : result t :=
  Build_t
    <$> Field (Default None) "ids" (t_optional (t_list (t_str py))) p
    <*> Field (Default None) "where" (t_optional (t_dict_any_any py)) p
    <*> Field (Default None) "where_document"
          (t_optional (t_dict_any_any py)) p
    <*> Field (Default None) "sort" (t_optional (t_str py)) p
    <*> Field (Default None) "limit" (t_optional (t_int py)) p
    <*> Field (Default None) "offset" (t_optional (t_int py)) p
    <*> Field (Default ["metadatas"; "documents"; "distances"]) "include"
          Include p.

End GetEmbedding.

Module DeleteEmbedding.

Record t : Type := {
  ids : option (list string);
  where_ : option dict;
  where_document : option dict
}.

Definition parse (py : Builtins) (p : dict) : result t :=
  Build_t
    <$> Field (Default None) "ids" (t_optional (t_list (t_str py))) p
    <*> Field (Default None) "where" (t_optional (t_dict_any_any py)) p
    <*> Field (Default None) "where_document"
          (t_optional (t_dict_any_any py)) p.

End DeleteEmbedding.

Module CreateCollection.

Record t : Type := {
  name : string;
  metadata : option dict;
  get_or_create : bool
}.

Definition parse (py : Builtins) (p : dict) : result t :=
  Build_t
    <$> Field Required "name" (t_str py) p
    <*> Field (Default None) "metadata"
          (t_optional (CollectionMetadata py)) p
    <*> Field (Default false) "get_or_create" t_bool p.

End CreateCollection.

Module UpdateCollection.

Record t : Type := {
  new_name : option string;
  new_metadata : option dict
}.

Definition parse (py : Builtins) (p : dict) : result t :=
  Build_t
    <$> Field (Default None) "new_name" (t_optional (t_str py)) p
    <*> Field (Default None) "new_metadata"
          (t_optional (CollectionMetadata py)) p.

End UpdateCollection.

(** ** Vocabulary of the statements *)

(** The JSON form of a parallel array entry that may be null. *)
Definition document_value (d : option string) : value :=
  match d with
  | Some s => VStr s
  | None => VNone
  end.

Definition metadata_value (m : option dict) : value :=
  match m with
  | Some d => VDict d
  | None => VNone
  end.

(** A number as the caller wrote it: a JSON integer or a JSON real. *)
Inductive number : Type :=
| NInt (z : Z)
| NFloat (f : float).

Definition number_value (n : number) : value :=
  match n with
  | NInt z => VInt z
  | NFloat f => VFloat f
  end.

(** A batch of embedding vectors as a JSON array of arrays of numbers. *)
Definition vectors_value (vs : list (list number)) : list value :=
  map (fun v => VList (map number_value v)) vs.

(** [under name l]: the location [l] is the field [name] or lies inside it. *)
Definition under (name : string) (l : loc) : bool :=
  match l with
  | LName s :: _ => String.eqb name s
  | _ => false
  end.

(** A validator is located when every error it reports lies at the location
    it was given or below it. *)
Definition located {A} (v : validator A) : Prop :=
  forall l x e, In e (errors_of (v l x)) -> exists s, fst e = l ++ s.

(** The calls the transport makes on this layer, one per model, and what each
    returns. *)
Inductive call : Type :=
| AddCall (p : dict)
| UpdateCall (p : dict)
| QueryCall (p : dict)
| GetCall (p : dict)
| DeleteCall (p : dict)
| CreateCollectionCall (p : dict)
| UpdateCollectionCall (p : dict).

Inductive request : Type :=
| AddRequest (r : AddEmbedding.t)
| UpdateRequest (r : UpdateEmbedding.t)
| QueryRequest (r : QueryEmbedding.t)
| GetRequest (r : GetEmbedding.t)
| DeleteRequest (r : DeleteEmbedding.t)
| CreateCollectionRequest (r : CreateCollection.t)
| UpdateCollectionRequest (r : UpdateCollection.t).

Definition validate_call (py : Builtins) (c : call) : result request :=
  match c with
  | AddCall p => AddRequest <$> AddEmbedding.parse py p
  | UpdateCall p => UpdateRequest <$> UpdateEmbedding.parse py p
  | QueryCall p => QueryRequest <$> QueryEmbedding.parse py p
  | GetCall p => GetRequest <$> GetEmbedding.parse py p
  | DeleteCall p => DeleteRequest <$> DeleteEmbedding.parse py p
  | CreateCollectionCall p =>
      CreateCollectionRequest <$> CreateCollection.parse py p
  | UpdateCollectionCall p =>
      UpdateCollectionRequest <$> UpdateCollection.parse py p
  end.


(** The payload of a call, and the same call with another payload. *)
Definition payload (c : call) : dict :=
  match c with
  | AddCall p | UpdateCall p | QueryCall p | GetCall p | DeleteCall p
  | CreateCollectionCall p | UpdateCollectionCall p => p
  end.



(** The names each class declares with [Field(..., ...)]. *)
Definition required_fields (c : call) : list string :=
  match c with
  | UpdateCall _ => ["ids"]
  | QueryCall _ => ["query_embeddings"]
  | CreateCollectionCall _ => ["name"]
  | _ => []
  end.

(** What [List[str]] reports for an element [str_validator] refuses. *)
Definition ids_element_error (x : value) : error_kind :=
  match x with
  | VNone => NoneIsNotAllowedError
  | _ => StrError
  end.

(** A validator is silent on an error kind when it never reports it. *)
Definition silent_on {A} (k : error_kind) (v : validator A) : Prop :=
  forall l x e, In e (errors_of (v l x)) -> snd e <> k.

(** * Properties *)

(** ** Payloads and results *)

Lemma dict_get_set_same (name : string) (v : value) (d : dict) :
  dict_get name (dict_set name v d) = Some v.
Proof.
  induction d as [| [k w] d IH]; simpl.
  - now rewrite String.eqb_refl.
  - destruct (is_key name k) eqn:E; simpl; rewrite E; auto.
Qed.

Lemma is_key_other (a b : string) (k : value) :
  a <> b -> is_key a k = true -> is_key b k = false.
Proof.
  intros Hab Ha. destruct k; simpl in *; try discriminate.
  apply String.eqb_eq in Ha. subst s.
  apply String.eqb_neq. congruence.
Qed.

Lemma dict_get_set_other (a b : string) (v : value) (d : dict) :
  a <> b -> dict_get b (dict_set a v d) = dict_get b d.
Proof.
  intros Hab. induction d as [| [k w] d IH]; simpl.
  - destruct (String.eqb_spec b a); congruence.
  - destruct (is_key a k) eqn:E; simpl.
    + now rewrite (is_key_other k Hab E).
    + now rewrite IH.
Qed.

Lemma Field_set_same {A} (d : default A) (name : string) (v : validator A)
    (x : value) (p : dict) :
  Field d name v (dict_set name x p) = v [LName name] x.
Proof. unfold Field. now rewrite dict_get_set_same. Qed.

Lemma Field_set_other {A} (d : default A) (a b : string) (v : validator A)
    (x : value) (p : dict) :
  a <> b -> Field d b v (dict_set a x p) = Field d b v p.
Proof. intros Hab. unfold Field. now rewrite dict_get_set_other. Qed.

Lemma Field_absent {A} (a : A) (name : string) (v : validator A) (p : dict) :
  dict_get name p = None -> Field (Default a) name v p = Ok a.
Proof. intros H. unfold Field. now rewrite H. Qed.

Lemma rmap_ok {A B} (f : A -> B) (r : result A) (b : B) :
  f <$> r = Ok b -> exists a, r = Ok a /\ b = f a.
Proof. destruct r; simpl; intros H; inversion H; eauto. Qed.

Lemma rap_ok {A B} (rf : result (A -> B)) (ra : result A) (b : B) :
  rf <*> ra = Ok b -> exists f a, rf = Ok f /\ ra = Ok a /\ b = f a.
Proof. destruct rf, ra; simpl; intros H; inversion H; eauto. Qed.

(** Takes a successful parse apart into its fields, last field first. *)
Ltac fields H :=
  repeat (let f := fresh "f" in
          let a := fresh "a" in
          let Ha := fresh "Ha" in
          apply rap_ok in H; destruct H as (f & a & H & Ha & ->));
  apply rmap_ok in H;
  let a := fresh "a" in
  let Ha := fresh "Ha" in
  destruct H as (a & Ha & ->).

Ltac set_other := rewrite Field_set_other by discriminate.

(** ** Defaults *)

(** C9: an entirely empty Delete payload parses without error, to a request
    whose [ids], [where] and [where_document] are all [None]. *)
Theorem empty_delete_accepted (py : Builtins) :
  DeleteEmbedding.parse py [] =
  Ok {| DeleteEmbedding.ids := None;
        DeleteEmbedding.where_ := None;
        DeleteEmbedding.where_document := None |}.
Proof. reflexivity. Qed.

(** C4: a Query payload without [n_results] parses to what the same payload
    with [n_results] set to 10 parses to, request or errors alike. *)
Theorem n_results_default (py : Builtins) (p : dict) :
  dict_get "n_results" p = None ->
  QueryEmbedding.parse py (dict_set "n_results" (VInt 10) p) =
  QueryEmbedding.parse py p.
Proof.
  intros Habsent. unfold QueryEmbedding.parse.
  rewrite Field_set_same.
  repeat set_other.
  now rewrite (@Field_absent _ _ _ _ _ Habsent).
Qed.

Lemma n_results_default_witness :
  dict_get "n_results" [(VStr "query_embeddings", VList [VList [VInt 1; VFloat 2]])]
    = None /\
  forall py,
    QueryEmbedding.parse py
      (dict_set "n_results" (VInt 10)
         [(VStr "query_embeddings", VList [VList [VInt 1; VFloat 2]])]) =
    QueryEmbedding.parse py
      [(VStr "query_embeddings", VList [VList [VInt 1; VFloat 2]])].
Proof.
  split; [reflexivity |].
  intros py. apply (n_results_default py). reflexivity.
Defined.



(** ** Arrays *)

Lemma validate_items_any (l : loc) (i : nat) (xs : list value) :
  validate_items t_any l i xs = Ok xs.
Proof.
  revert i. induction xs as [| x xs IH]; intros i; simpl; [reflexivity |].
  now rewrite IH.
Qed.

Lemma validate_items_documents (py : Builtins) (l : loc) (i : nat)
    (ds : list (option string)) :
  validate_items (t_optional (t_str py)) l i (map document_value ds) = Ok ds.
Proof.
  revert i. induction ds as [| d ds IH]; intros i; simpl; [reflexivity |].
  rewrite IH. now destruct d.
Qed.

Lemma validate_items_metadatas (py : Builtins) (l : loc) (i : nat)
    (ms : list (option dict)) :
  validate_items (t_optional (t_dict_any_any py)) l i (map metadata_value ms)
  = Ok ms.
Proof.
  revert i. induction ms as [| m ms IH]; intros i; simpl; [reflexivity |].
  rewrite IH. now destruct m.
Qed.

Lemma optional_list_ok {A} (elem : validator A) (l : loc) (xs : list value)
    (ys : list A) :
  validate_items elem l 0 xs = Ok ys ->
  t_optional (t_list elem) l (VList xs) = Ok (Some ys).
Proof. intros H. simpl. now rewrite H. Qed.

(** What [validate_items] returns for a list of [str] elements. *)
Lemma validate_items_str (py : Builtins) (l : loc) (xs : list value) :
  forall i ss,
    validate_items (t_str py) l i xs = Ok ss ->
    Forall2 (fun x s => str_validator py x = Some s) xs ss.
Proof.
  induction xs as [| x xs IH]; intros i ss H; simpl in H.
  - inversion H. constructor.
  - apply rap_ok in H. destruct H as (f & a & Hx & Hxs & ->).
    apply rmap_ok in Hx. destruct Hx as (s & Hs & ->).
    constructor; [| eauto].
    unfold t_str, not_none, apply_validator in Hs.
    destruct x; simpl in Hs; try discriminate; now inversion Hs.
Qed.

(** C1, as the code has it: the parallel arrays of an Add or Update request
    are not compared with [ids].  Whatever their lengths, arrays of the
    declared element types put in place of those of a valid request give a
    valid request with the same [ids] and exactly these arrays. *)
Theorem parallel_arrays_any_length (py : Builtins) (p : dict)
    (es : list value) (ms : list (option dict)) (ds : list (option string)) :
  let p' :=
    dict_set "embeddings" (VList es)
      (dict_set "metadatas" (VList (map metadata_value ms))
         (dict_set "documents" (VList (map document_value ds)) p)) in
  (forall r, AddEmbedding.parse py p = Ok r ->
     AddEmbedding.parse py p' =
     Ok {| AddEmbedding.embeddings := Some es;
           AddEmbedding.metadatas := Some ms;
           AddEmbedding.documents := Some ds;
           AddEmbedding.ids := AddEmbedding.ids r |}) /\
  (forall r, UpdateEmbedding.parse py p = Ok r ->
     UpdateEmbedding.parse py p' =
     Ok {| UpdateEmbedding.embeddings := Some es;
           UpdateEmbedding.metadatas := Some ms;
           UpdateEmbedding.documents := Some ds;
           UpdateEmbedding.ids := UpdateEmbedding.ids r |}).
Proof.
  intros p'. subst p'. split; intros r Hr.
  - unfold AddEmbedding.parse in *. fields Hr.
    rewrite Field_set_same.
    set_other. rewrite Field_set_same.
    do 2 set_other. rewrite Field_set_same.
    do 3 set_other. rewrite Ha.
    rewrite (optional_list_ok _ _ _ (validate_items_any _ _ es)).
    rewrite (optional_list_ok _ _ _ (validate_items_metadatas py _ _ ms)).
    rewrite (optional_list_ok _ _ _ (validate_items_documents py _ _ ds)).
    reflexivity.
  - unfold UpdateEmbedding.parse in *. fields Hr.
    rewrite Field_set_same.
    set_other. rewrite Field_set_same.
    do 2 set_other. rewrite Field_set_same.
    do 3 set_other. rewrite Ha.
    rewrite (optional_list_ok _ _ _ (validate_items_any _ _ es)).
    rewrite (optional_list_ok _ _ _ (validate_items_metadatas py _ _ ms)).
    rewrite (optional_list_ok _ _ _ (validate_items_documents py _ _ ds)).
    reflexivity.
Qed.

Lemma parallel_arrays_any_length_witness :
  (forall py,
     AddEmbedding.parse py [(VStr "ids", VList [VStr "a"; VStr "b"])] =
     Ok {| AddEmbedding.embeddings := None;
           AddEmbedding.metadatas := None;
           AddEmbedding.documents := None;
           AddEmbedding.ids := Some ["a"; "b"] |}) /\
  (forall py,
     AddEmbedding.parse py
       (dict_set "embeddings" (VList [VList [VInt 1; VInt 2]])
          (dict_set "metadatas" (VList (map metadata_value []))
             (dict_set "documents"
                (VList (map document_value [Some "x"; None; Some "z"]))
                [(VStr "ids", VList [VStr "a"; VStr "b"])]))) =
     Ok {| AddEmbedding.embeddings := Some [VList [VInt 1; VInt 2]];
           AddEmbedding.metadatas := Some [];
           AddEmbedding.documents := Some [Some "x"; None; Some "z"];
           AddEmbedding.ids := Some ["a"; "b"] |}).
Proof.
  split; intros py; [reflexivity |].
  exact (proj1 (parallel_arrays_any_length py
                  [(VStr "ids", VList [VStr "a"; VStr "b"])]
                  [VList [VInt 1; VInt 2]] [] [Some "x"; None; Some "z"])
               _ eq_refl).
Defined.

(** C1 as stated fails: an Add request with two ids and one embedding (and
    one with three) passes validation, and so does the Update request. *)
Lemma length_mismatch_accepted :
  (forall py,
     AddEmbedding.parse py
       [(VStr "ids", VList [VStr "a"; VStr "b"]);
        (VStr "embeddings", VList [VList [VFloat 0.5; VFloat 0.25]])] =
     Ok {| AddEmbedding.embeddings := Some [VList [VFloat 0.5; VFloat 0.25]];
           AddEmbedding.metadatas := None;
           AddEmbedding.documents := None;
           AddEmbedding.ids := Some ["a"; "b"] |}) /\
  (forall py,
     AddEmbedding.parse py
       [(VStr "ids", VList [VStr "a"; VStr "b"]);
        (VStr "embeddings", VList [VList [VInt 1]; VList [VInt 2];
                                   VList [VInt 3]])] =
     Ok {| AddEmbedding.embeddings :=
             Some [VList [VInt 1]; VList [VInt 2]; VList [VInt 3]];
           AddEmbedding.metadatas := None;
           AddEmbedding.documents := None;
           AddEmbedding.ids := Some ["a"; "b"] |}) /\
  (forall py,
     UpdateEmbedding.parse py
       [(VStr "ids", VList [VStr "a"; VStr "b"]);
        (VStr "documents", VList [VStr "x"])] =
     Ok {| UpdateEmbedding.embeddings := None;
           UpdateEmbedding.metadatas := None;
           UpdateEmbedding.documents := Some [Some "x"];
           UpdateEmbedding.ids := ["a"; "b"] |}).
Proof. repeat split. Qed.

(** ** Required fields *)

Lemma rmap_errors {A B} (f : A -> B) (r : result A) :
  errors_of (f <$> r) = errors_of r.
Proof. now destruct r. Qed.

Lemma rap_err_right {A B} (rf : result (A -> B)) (es : list error) :
  exists es', rf <*> Err es = Err es' /\ incl es es'.
Proof.
  destruct rf as [f | es0]; simpl; eexists; split; try reflexivity.
  - apply incl_refl.
  - apply incl_appr, incl_refl.
Qed.

(** C2, as the code has it: an Update request parses only if [ids] is given
    and is a list whose elements [str_validator] takes (a [str], or a number
    it converts); without [ids] it is refused with "field required".  No
    length is asked of the list: the empty list is accepted by Add and by
    Update. *)
Theorem update_ids_required (py : Builtins) (p : dict) :
  (forall r, UpdateEmbedding.parse py p = Ok r ->
     exists xs,
       dict_get "ids" p = Some (VList xs) /\
       Forall2 (fun x s => str_validator py x = Some s)
         xs (UpdateEmbedding.ids r)) /\
  (dict_get "ids" p = None ->
     exists es,
       UpdateEmbedding.parse py p = Err es /\
       In ([LName "ids"], MissingError) es) /\
  (forall r, UpdateEmbedding.parse py p = Ok r ->
     UpdateEmbedding.parse py (dict_set "ids" (VList []) p) =
     Ok {| UpdateEmbedding.embeddings := UpdateEmbedding.embeddings r;
           UpdateEmbedding.metadatas := UpdateEmbedding.metadatas r;
           UpdateEmbedding.documents := UpdateEmbedding.documents r;
           UpdateEmbedding.ids := [] |}) /\
  (forall r, AddEmbedding.parse py p = Ok r ->
     AddEmbedding.parse py (dict_set "ids" (VList []) p) =
     Ok {| AddEmbedding.embeddings := AddEmbedding.embeddings r;
           AddEmbedding.metadatas := AddEmbedding.metadatas r;
           AddEmbedding.documents := AddEmbedding.documents r;
           AddEmbedding.ids := Some [] |}).
Proof.
  repeat split.
  - intros r Hr. unfold UpdateEmbedding.parse in Hr. fields Hr.
    unfold Field in Ha.
    destruct (dict_get "ids" p) as [x |]; [| discriminate].
    destruct x; try discriminate. simpl in Ha.
    eexists; split; [reflexivity |].
    simpl. eapply validate_items_str; eassumption.
  - intros Habsent. unfold UpdateEmbedding.parse.
    assert (E : Field Required "ids" (t_list (t_str py)) p =
                Err [([LName "ids"], MissingError)]).
    { unfold Field. now rewrite Habsent. }
    rewrite E.
    destruct (rap_err_right
                (UpdateEmbedding.Build_t
                   <$> Field (Default None) "embeddings"
                         (t_optional (t_list t_any)) p
                   <*> Field (Default None) "metadatas"
                         (t_optional
                            (t_list (t_optional (t_dict_any_any py)))) p
                   <*> Field (Default None) "documents"
                         (t_optional (t_list (t_optional (t_str py)))) p)
                [([LName "ids"], MissingError)]) as (es & -> & Hin).
    exists es; split; [reflexivity |]. apply Hin. now left.
  - intros r Hr. unfold UpdateEmbedding.parse in *. fields Hr.
    rewrite Field_set_same. repeat set_other.
    rewrite Ha2, Ha1, Ha0. reflexivity.
  - intros r Hr. unfold AddEmbedding.parse in *. fields Hr.
    rewrite Field_set_same. repeat set_other.
    rewrite Ha2, Ha1, Ha0. reflexivity.
Qed.

Lemma update_ids_required_witness :
  (forall py,
     UpdateEmbedding.parse py
       [(VStr "ids", VList [VStr "a"; VInt 7]);
        (VStr "documents", VList [VStr "x"; VNone])] =
     Ok {| UpdateEmbedding.embeddings := None;
           UpdateEmbedding.metadatas := None;
           UpdateEmbedding.documents := Some [Some "x"; None];
           UpdateEmbedding.ids := ["a"; "7"] |}) /\
  (forall py,
     exists xs,
       dict_get "ids"
         [(VStr "ids", VList [VStr "a"; VInt 7]);
          (VStr "documents", VList [VStr "x"; VNone])] = Some (VList xs) /\
       Forall2 (fun x s => str_validator py x = Some s) xs ["a"; "7"]) /\
  (forall py,
     exists es,
       UpdateEmbedding.parse py [(VStr "documents", VList [VStr "x"])] =
       Err es /\
       In ([LName "ids"], MissingError) es).
Proof.
  split; [intros py; reflexivity |].
  split; intros py.
  - exact (proj1 (update_ids_required py
                    [(VStr "ids", VList [VStr "a"; VInt 7]);
                     (VStr "documents", VList [VStr "x"; VNone])])
                 _ eq_refl).
  - exact (proj1 (proj2 (update_ids_required py
                           [(VStr "documents", VList [VStr "x"])]))
                 eq_refl).
Defined.

(** C2 as stated fails: an empty [ids] list passes validation, for Update
    and for Add. *)
Lemma empty_ids_accepted :
  (forall py,
     UpdateEmbedding.parse py [(VStr "ids", VList [])] =
     Ok {| UpdateEmbedding.embeddings := None;
           UpdateEmbedding.metadatas := None;
           UpdateEmbedding.documents := None;
           UpdateEmbedding.ids := [] |}) /\
  (forall py,
     AddEmbedding.parse py [(VStr "ids", VList [])] =
     Ok {| AddEmbedding.embeddings := None;
           AddEmbedding.metadatas := None;
           AddEmbedding.documents := None;
           AddEmbedding.ids := Some [] |}).
Proof. split; reflexivity. Qed.

(** [AddEmbedding.ids] is declared with [Field(None, ...)] where
    [UpdateEmbedding.ids] has [Field(..., ...)]: an Add payload without
    [ids], or with a null [ids], parses, to a request whose [ids] is
    [None]. *)
Lemma add_without_ids (py : Builtins) :
  AddEmbedding.parse py [(VStr "documents", VList [VStr "x"])] =
  Ok {| AddEmbedding.embeddings := None;
        AddEmbedding.metadatas := None;
        AddEmbedding.documents := Some [Some "x"];
        AddEmbedding.ids := None |} /\
  AddEmbedding.parse py
    [(VStr "documents", VList [VStr "x"]); (VStr "ids", VNone)] =
  Ok {| AddEmbedding.embeddings := None;
        AddEmbedding.metadatas := None;
        AddEmbedding.documents := Some [Some "x"];
        AddEmbedding.ids := None |}.
Proof. split; reflexivity. Qed.

(** C5, as the code has it: a CreateCollection request parses only if [name]
    is given and is an object [str_validator] takes (a [str], or a number it
    converts), and the request holds the converted name; without [name] it is
    refused with "field required".  No length is asked of the name: the empty
    string is accepted. *)
Theorem create_collection_name (py : Builtins) (p : dict) :
  (forall r, CreateCollection.parse py p = Ok r ->
     exists x,
       dict_get "name" p = Some x /\
       str_validator py x = Some (CreateCollection.name r)) /\
  (dict_get "name" p = None ->
     exists es,
       CreateCollection.parse py p = Err es /\
       In ([LName "name"], MissingError) es) /\
  (forall r, CreateCollection.parse py p = Ok r ->
     CreateCollection.parse py (dict_set "name" (VStr "") p) =
     Ok {| CreateCollection.name := "";
           CreateCollection.metadata := CreateCollection.metadata r;
           CreateCollection.get_or_create :=
             CreateCollection.get_or_create r |}).
Proof.
  repeat split.
  - intros r Hr. unfold CreateCollection.parse in Hr. fields Hr.
    unfold Field in Ha1.
    destruct (dict_get "name" p) as [x |]; [| discriminate].
    exists x; split; [reflexivity |].
    unfold t_str, not_none, apply_validator in Ha1. simpl.
    destruct x; simpl in *; try discriminate; now inversion Ha1.
  - intros Habsent. unfold CreateCollection.parse, Field at 1.
    rewrite Habsent. simpl.
    destruct (Field (Default None) "metadata" _ p);
      destruct (Field (Default false) "get_or_create" _ p); simpl;
      eexists; (split; [reflexivity |]); simpl; auto.
  - intros r Hr. unfold CreateCollection.parse in *. fields Hr.
    rewrite Field_set_same. repeat set_other.
    rewrite Ha0, Ha. reflexivity.
Qed.

Lemma create_collection_name_witness :
  (forall py,
     CreateCollection.parse py
       [(VStr "name", VStr "my-collection");
        (VStr "get_or_create", VStr "Yes")] =
     Ok {| CreateCollection.name := "my-collection";
           CreateCollection.metadata := None;
           CreateCollection.get_or_create := true |}) /\
  (forall py,
     CreateCollection.parse py
       (dict_set "name" (VStr "")
          [(VStr "name", VStr "my-collection");
           (VStr "get_or_create", VStr "Yes")]) =
     Ok {| CreateCollection.name := "";
           CreateCollection.metadata := None;
           CreateCollection.get_or_create := true |}) /\
  (forall py,
     exists es,
       CreateCollection.parse py [(VStr "get_or_create", VBool true)] =
       Err es /\
       In ([LName "name"], MissingError) es).
Proof.
  split; [intros py; reflexivity |].
  split; intros py.
  - exact (proj2 (proj2 (create_collection_name py
                           [(VStr "name", VStr "my-collection");
                            (VStr "get_or_create", VStr "Yes")]))
                 _ eq_refl).
  - exact (proj1 (proj2 (create_collection_name py
                           [(VStr "get_or_create", VBool true)]))
                 eq_refl).
Defined.

(** C5 as stated fails: the empty string is accepted as a collection name. *)
Lemma empty_name_accepted :
  (forall py,
     CreateCollection.parse py [(VStr "name", VStr "")] =
     Ok {| CreateCollection.name := "";
           CreateCollection.metadata := None;
           CreateCollection.get_or_create := false |}) /\
  String.length "" = 0.
Proof. split; reflexivity. Qed.

(** ** Paging *)




(** ** Embeddings *)

Lemma add_embeddings_replace (py : Builtins) (p : dict) (es : list value)
    (r : AddEmbedding.t) :
  AddEmbedding.parse py p = Ok r ->
  AddEmbedding.parse py (dict_set "embeddings" (VList es) p) =
  Ok {| AddEmbedding.embeddings := Some es;
        AddEmbedding.metadatas := AddEmbedding.metadatas r;
        AddEmbedding.documents := AddEmbedding.documents r;
        AddEmbedding.ids := AddEmbedding.ids r |}.
Proof.
  intros Hr. unfold AddEmbedding.parse in *. fields Hr.
  rewrite Field_set_same. repeat set_other.
  rewrite (optional_list_ok _ _ _ (validate_items_any _ _ es)).
  rewrite Ha1, Ha0, Ha. reflexivity.
Qed.

Lemma query_embeddings_replace (py : Builtins) (p : dict) (es : list value)
    (r : QueryEmbedding.t) :
  QueryEmbedding.parse py p = Ok r ->
  QueryEmbedding.parse py (dict_set "query_embeddings" (VList es) p) =
  Ok {| QueryEmbedding.where_ := QueryEmbedding.where_ r;
        QueryEmbedding.where_document := QueryEmbedding.where_document r;
        QueryEmbedding.query_embeddings := es;
        QueryEmbedding.n_results := QueryEmbedding.n_results r;
        QueryEmbedding.include := QueryEmbedding.include r |}.
Proof.
  intros Hr. unfold QueryEmbedding.parse in *. fields Hr.
  rewrite Field_set_same. repeat set_other.
  unfold t_list at 1, not_none. rewrite validate_items_any.
  rewrite Ha3, Ha2, Ha0, Ha. reflexivity.
Qed.

(** C7: embedding vectors written with integers, with reals or with both are
    accepted by Add and by Query, and the request holds every element as it
    was given: an integer stays an integer and a real stays a real. *)
Theorem embeddings_kept_as_given (py : Builtins) (p : dict) :
  (forall vs r, AddEmbedding.parse py p = Ok r ->
     AddEmbedding.parse py
       (dict_set "embeddings" (VList (vectors_value vs)) p) =
     Ok {| AddEmbedding.embeddings := Some (vectors_value vs);
           AddEmbedding.metadatas := AddEmbedding.metadatas r;
           AddEmbedding.documents := AddEmbedding.documents r;
           AddEmbedding.ids := AddEmbedding.ids r |}) /\
  (forall vs r, QueryEmbedding.parse py p = Ok r ->
     QueryEmbedding.parse py
       (dict_set "query_embeddings" (VList (vectors_value vs)) p) =
     Ok {| QueryEmbedding.where_ := QueryEmbedding.where_ r;
           QueryEmbedding.where_document := QueryEmbedding.where_document r;
           QueryEmbedding.query_embeddings := vectors_value vs;
           QueryEmbedding.n_results := QueryEmbedding.n_results r;
           QueryEmbedding.include := QueryEmbedding.include r |}) /\
  (forall es r, dict_get "embeddings" p = Some (VList es) ->
     AddEmbedding.parse py p = Ok r ->
     AddEmbedding.embeddings r = Some es) /\
  (forall es r, dict_get "query_embeddings" p = Some (VList es) ->
     QueryEmbedding.parse py p = Ok r ->
     QueryEmbedding.query_embeddings r = es).
Proof.
  repeat split.
  - intros vs r. apply add_embeddings_replace.
  - intros vs r. apply query_embeddings_replace.
  - intros es r Hes Hr. unfold AddEmbedding.parse in Hr. fields Hr.
    unfold Field in Ha2. rewrite Hes in Ha2.
    rewrite (optional_list_ok _ _ _ (validate_items_any _ _ es)) in Ha2.
    now inversion Ha2.
  - intros es r Hes Hr. unfold QueryEmbedding.parse in Hr. fields Hr.
    unfold Field in Ha1. rewrite Hes in Ha1.
    unfold t_list, not_none in Ha1. rewrite validate_items_any in Ha1.
    now inversion Ha1.
Qed.

Lemma embeddings_kept_as_given_witness :
  (forall py,
     AddEmbedding.parse py [(VStr "ids", VList [VStr "a"; VStr "b"])] =
     Ok {| AddEmbedding.embeddings := None;
           AddEmbedding.metadatas := None;
           AddEmbedding.documents := None;
           AddEmbedding.ids := Some ["a"; "b"] |}) /\
  (forall py,
     AddEmbedding.parse py
       (dict_set "embeddings"
          (VList (vectors_value
                    [[NInt 1; NFloat 0.5]; [NFloat (-2); NInt (-3)]]))
          [(VStr "ids", VList [VStr "a"; VStr "b"])]) =
     Ok {| AddEmbedding.embeddings :=
             Some [VList [VInt 1; VFloat 0.5];
                   VList [VFloat (-2); VInt (-3)]];
           AddEmbedding.metadatas := None;
           AddEmbedding.documents := None;
           AddEmbedding.ids := Some ["a"; "b"] |}) /\
  (forall py,
     QueryEmbedding.query_embeddings
       {| QueryEmbedding.where_ := None;
          QueryEmbedding.where_document := None;
          QueryEmbedding.query_embeddings := [VList [VFloat 0.5; VInt 2]];
          QueryEmbedding.n_results := 5;
          QueryEmbedding.include := ["metadatas"; "documents"; "distances"] |}
     = [VList [VFloat 0.5; VInt 2]] /\
     QueryEmbedding.parse py
       [(VStr "query_embeddings", VList [VList [VFloat 0.5; VInt 2]]);
        (VStr "n_results", VInt 5)] =
     Ok {| QueryEmbedding.where_ := None;
           QueryEmbedding.where_document := None;
           QueryEmbedding.query_embeddings := [VList [VFloat 0.5; VInt 2]];
           QueryEmbedding.n_results := 5;
           QueryEmbedding.include := ["metadatas"; "documents"; "distances"] |}).
Proof.
  split; [intros py; reflexivity |].
  split; intros py.
  - exact (proj1 (embeddings_kept_as_given py
                    [(VStr "ids", VList [VStr "a"; VStr "b"])])
                 [[NInt 1; NFloat 0.5]; [NFloat (-2); NInt (-3)]] _ eq_refl).
  - split; [| reflexivity].
    exact (proj2 (proj2 (proj2 (embeddings_kept_as_given py
                    [(VStr "query_embeddings",
                      VList [VList [VFloat 0.5; VInt 2]]);
                     (VStr "n_results", VInt 5)])))
                 _ _ eq_refl eq_refl).
Defined.

(** ** Where the errors are *)

Lemma rap_errors {A B} (rf : result (A -> B)) (ra : result A) (e : error) :
  In e (errors_of (rf <*> ra)) -> In e (errors_of rf) \/ In e (errors_of ra).
Proof.
  destruct rf, ra; simpl; auto.
  intros H. apply in_app_or in H. exact H.
Qed.

Lemma located_fail {A} (l : loc) (k : error_kind) (e : error) :
  In e (errors_of (@fail A l k)) -> exists s, fst e = l ++ s.
Proof.
  simpl. intros [<- | []]. exists []. simpl. now rewrite app_nil_r.
Qed.

Lemma located_any : located t_any.
Proof. intros l x e []. Qed.

Lemma located_not_none {A} (v : validator A) :
  located v -> located (not_none v).
Proof.
  intros Hv l x e. unfold not_none.
  destruct x; try apply Hv. apply located_fail.
Qed.

Lemma located_apply {A} (f : value -> option A) (k : error_kind) :
  located (apply_validator f k).
Proof.
  intros l x e. unfold apply_validator.
  destruct (f x); [intros [] | apply located_fail].
Qed.

Lemma located_optional {A} (v : validator A) :
  located v -> located (t_optional v).
Proof.
  intros Hv l x e. unfold t_optional.
  destruct x; try (rewrite rmap_errors; apply Hv). intros [].
Qed.

Lemma located_items {A} (elem : validator A) (l : loc) (xs : list value) :
  located elem ->
  forall i e, In e (errors_of (validate_items elem l i xs)) ->
              exists s, fst e = l ++ s.
Proof.
  intros Hv. induction xs as [| x xs IH]; intros i e; simpl; [intros [] |].
  intros H. apply rap_errors in H. destruct H as [H | H].
  - rewrite rmap_errors in H. apply Hv in H. destruct H as (s & ->).
    exists ([LIndex i] ++ s). now rewrite app_assoc.
  - eapply IH; eassumption.
Qed.

Lemma located_list {A} (elem : validator A) :
  located elem -> located (t_list elem).
Proof.
  intros Hv. unfold t_list. apply located_not_none.
  intros l x e. destruct x; try apply located_fail.
  now apply located_items.
Qed.

Lemma located_dict (py : Builtins) : located (t_dict_any_any py).
Proof.
  unfold t_dict_any_any. apply located_not_none.
  intros l x e.
  destruct x; try (destruct (dict_of_iterable py _);
                   [intros [] | apply located_fail]).
  intros [].
Qed.

Lemma located_literal (choices : list string) : located (t_literal choices).
Proof.
  unfold t_literal. apply located_not_none.
  intros l x e. destruct x; try apply located_fail.
  destruct (str_in s choices); [intros [] | apply located_fail].
Qed.

Lemma located_str (py : Builtins) : located (t_str py).
Proof. apply located_not_none, located_apply. Qed.

Lemma located_int (py : Builtins) : located (t_int py).
Proof. apply located_not_none, located_apply. Qed.

Lemma located_Include : located Include.
Proof. apply located_list, located_literal. Qed.

Create HintDb located.

#[local] Hint Resolve located_any located_optional located_list located_dict
  located_str located_int located_Include : located.

(** The errors of a field lie under its name. *)
Lemma Field_errors_under {A} (d : default A) (name : string)
    (v : validator A) (p : dict) (e : error) :
  located v ->
  In e (errors_of (Field d name v p)) -> under name (fst e) = true.
Proof.
  intros Hv. unfold Field.
  destruct (dict_get name p) as [x |].
  - intros H. apply Hv in H. destruct H as (s & ->). simpl.
    apply String.eqb_refl.
  - destruct d; simpl; [| intros []].
    intros [<- | []]. simpl. apply String.eqb_refl.
Qed.

Lemma under_other (a b : string) (l : loc) :
  a <> b -> under a l = true -> under b l = false.
Proof.
  intros Hab. destruct l as [| [s | i] l]; simpl; try discriminate.
  intros Ha. apply String.eqb_eq in Ha. subst s.
  apply String.eqb_neq. congruence.
Qed.

(** An error of the field [a] is not under the field [b]. *)
Lemma Field_errors_elsewhere {A} (d : default A) (a b : string)
    (v : validator A) (p : dict) (e : error) :
  located v -> a <> b ->
  In e (errors_of (Field d a v p)) -> under b (fst e) = true -> False.
Proof.
  intros Hv Hab He Hb.
  apply Field_errors_under in He; [| assumption].
  rewrite (under_other _ Hab He) in Hb. discriminate.
Qed.

(** What the [embeddings] field of Add can report: that the object is not a
    list. *)
Lemma embeddings_field_errors (p : dict) (e : error) :
  In e (errors_of (Field (Default None) "embeddings"
                     (t_optional (t_list t_any)) p)) ->
  e = ([LName "embeddings"], ListError).
Proof.
  unfold Field. destruct (dict_get "embeddings" p) as [x |]; [| intros []].
  destruct x; simpl; try (intros [<- | []]; reflexivity); try (intros []).
  rewrite validate_items_any. intros [].
Qed.

(** What the [query_embeddings] field of Query can report: that it is
    missing, null, or not a list. *)
Lemma query_embeddings_field_errors (p : dict) (e : error) :
  In e (errors_of (Field Required "query_embeddings" (t_list t_any) p)) ->
  fst e = [LName "query_embeddings"] /\
  In (snd e) [MissingError; NoneIsNotAllowedError; ListError].
Proof.
  unfold Field. destruct (dict_get "query_embeddings" p) as [x |].
  - destruct x; simpl; try (intros [<- | []]; simpl; auto).
    rewrite validate_items_any. intros [].
  - simpl. intros [<- | []]. simpl. auto.
Qed.

Ltac elsewhere H Hu :=
  exfalso; eapply Field_errors_elsewhere;
  [ | | exact H | exact Hu ]; [auto with located | discriminate].

(** C10: the elements of [embeddings] and [query_embeddings] are not
    checked.  A list of any objects put for either in a valid request gives a
    valid request that holds these objects, and among the errors of any
    payload the only ones about these fields are about the field itself (not
    a list, null or missing), never about one of its elements. *)
Theorem embedding_elements_unchecked (py : Builtins) (p : dict) :
  (forall es r, AddEmbedding.parse py p = Ok r ->
     AddEmbedding.parse py (dict_set "embeddings" (VList es) p) =
     Ok {| AddEmbedding.embeddings := Some es;
           AddEmbedding.metadatas := AddEmbedding.metadatas r;
           AddEmbedding.documents := AddEmbedding.documents r;
           AddEmbedding.ids := AddEmbedding.ids r |}) /\
  (forall es r, QueryEmbedding.parse py p = Ok r ->
     QueryEmbedding.parse py (dict_set "query_embeddings" (VList es) p) =
     Ok {| QueryEmbedding.where_ := QueryEmbedding.where_ r;
           QueryEmbedding.where_document := QueryEmbedding.where_document r;
           QueryEmbedding.query_embeddings := es;
           QueryEmbedding.n_results := QueryEmbedding.n_results r;
           QueryEmbedding.include := QueryEmbedding.include r |}) /\
  (forall e, In e (errors_of (AddEmbedding.parse py p)) ->
     under "embeddings" (fst e) = true ->
     e = ([LName "embeddings"], ListError)) /\
  (forall e, In e (errors_of (QueryEmbedding.parse py p)) ->
     under "query_embeddings" (fst e) = true ->
     fst e = [LName "query_embeddings"] /\
     In (snd e) [MissingError; NoneIsNotAllowedError; ListError]).
Proof.
  repeat apply conj.
  - intros es r. apply add_embeddings_replace.
  - intros es r. apply query_embeddings_replace.
  - intros e He Hu. unfold AddEmbedding.parse in He.
    apply rap_errors in He. destruct He as [He | He]; [| elsewhere He Hu].
    apply rap_errors in He. destruct He as [He | He]; [| elsewhere He Hu].
    apply rap_errors in He. destruct He as [He | He]; [| elsewhere He Hu].
    rewrite rmap_errors in He.
    eapply embeddings_field_errors; exact He.
  - intros e He Hu. unfold QueryEmbedding.parse in He.
    apply rap_errors in He. destruct He as [He | He]; [| elsewhere He Hu].
    apply rap_errors in He. destruct He as [He | He]; [| elsewhere He Hu].
    apply rap_errors in He. destruct He as [He | He];
      [| eapply query_embeddings_field_errors; exact He].
    apply rap_errors in He. destruct He as [He | He]; [| elsewhere He Hu].
    rewrite rmap_errors in He. elsewhere He Hu.
Qed.

Lemma embedding_elements_unchecked_witness :
  (forall py,
     AddEmbedding.parse py [(VStr "ids", VList [VStr "a"])] =
     Ok {| AddEmbedding.embeddings := None;
           AddEmbedding.metadatas := None;
           AddEmbedding.documents := None;
           AddEmbedding.ids := Some ["a"] |}) /\
  (forall py,
     AddEmbedding.parse py
       (dict_set "embeddings"
          (VList [VStr "one"; VList [VList []]; VNone;
                  VDict [(VStr "k", VInt 1)]])
          [(VStr "ids", VList [VStr "a"])]) =
     Ok {| AddEmbedding.embeddings :=
             Some [VStr "one"; VList [VList []]; VNone;
                   VDict [(VStr "k", VInt 1)]];
           AddEmbedding.metadatas := None;
           AddEmbedding.documents := None;
           AddEmbedding.ids := Some ["a"] |}) /\
  (forall py,
     In ([LName "embeddings"], ListError)
        (errors_of (AddEmbedding.parse py
                      [(VStr "embeddings", VStr "one");
                       (VStr "ids", VList [VNone])])) /\
     under "embeddings" [LName "embeddings"] = true /\
     ([LName "embeddings"], ListError) = ([LName "embeddings"], ListError)).
Proof.
  split; [intros py; reflexivity |].
  split; intros py.
  - exact (proj1 (embedding_elements_unchecked py
                    [(VStr "ids", VList [VStr "a"])])
                 [VStr "one"; VList [VList []]; VNone;
                  VDict [(VStr "k", VInt 1)]] _ eq_refl).
  - assert (Hin : In ([LName "embeddings"], ListError)
                     (errors_of (AddEmbedding.parse py
                                   [(VStr "embeddings", VStr "one");
                                    (VStr "ids", VList [VNone])]))).
    { simpl. auto. }
    split; [exact Hin |]. split; [reflexivity |].
    exact (proj1 (proj2 (proj2 (embedding_elements_unchecked py
                    [(VStr "embeddings", VStr "one");
                     (VStr "ids", VList [VNone])])))
                 ([LName "embeddings"], ListError) Hin eq_refl).
Defined.

(** ** Runs *)




(** * Further properties of the models *)

(** ** Errors of a parse *)

Lemma errors_rap {A B} (rf : result (A -> B)) (ra : result A) :
  errors_of (rf <*> ra) = errors_of rf ++ errors_of ra.
Proof.
  destruct rf, ra; simpl; auto. now rewrite app_nil_r.
Qed.

(** Splits the errors of a parse into those of its fields. *)
Ltac field_errors :=
  repeat rewrite ?errors_rap, ?rmap_errors, ?in_app_iff.

Ltac field_errors_in H :=
  repeat rewrite ?errors_rap, ?rmap_errors, ?in_app_iff in H.

Lemma located_bool : located t_bool.
Proof. apply located_not_none, located_apply. Qed.

Lemma located_CollectionMetadata (py : Builtins) :
  located (CollectionMetadata py).
Proof. apply located_dict. Qed.

#[local] Hint Resolve located_bool located_CollectionMetadata : located.

Ltac in_list := simpl; repeat (first [left; reflexivity | right]).



(** ** Required fields *)

Lemma silent_fail {A} (k k' : error_kind) (l : loc) (e : error) :
  k' <> k -> In e (errors_of (@fail A l k')) -> snd e <> k.
Proof. intros Hk [<- | []]. exact Hk. Qed.

Lemma silent_any (k : error_kind) : silent_on k t_any.
Proof. intros l x e []. Qed.

Lemma silent_not_none {A} (v : validator A) :
  silent_on MissingError v -> silent_on MissingError (not_none v).
Proof.
  intros Hv l x e. unfold not_none.
  destruct x; try apply Hv. apply silent_fail. discriminate.
Qed.

Lemma silent_apply {A} (f : value -> option A) (k : error_kind) :
  k <> MissingError -> silent_on MissingError (apply_validator f k).
Proof.
  intros Hk l x e. unfold apply_validator.
  destruct (f x); [intros [] | now apply silent_fail].
Qed.

Lemma silent_optional {A} (v : validator A) :
  silent_on MissingError v -> silent_on MissingError (t_optional v).
Proof.
  intros Hv l x e. unfold t_optional.
  destruct x; try (rewrite rmap_errors; apply Hv). intros [].
Qed.

Lemma silent_items {A} (elem : validator A) (l : loc) (xs : list value) :
  silent_on MissingError elem ->
  forall i e, In e (errors_of (validate_items elem l i xs)) ->
              snd e <> MissingError.
Proof.
  intros Hv. induction xs as [| x xs IH]; intros i e; simpl; [intros [] |].
  rewrite errors_rap, rmap_errors, in_app_iff. intros [H | H].
  - eapply Hv; eassumption.
  - eapply IH; eassumption.
Qed.

Lemma silent_list {A} (elem : validator A) :
  silent_on MissingError elem -> silent_on MissingError (t_list elem).
Proof.
  intros Hv. unfold t_list. apply silent_not_none.
  intros l x e. destruct x; try (apply silent_fail; discriminate).
  now apply silent_items.
Qed.

Lemma silent_dict (py : Builtins) :
  silent_on MissingError (t_dict_any_any py).
Proof.
  unfold t_dict_any_any. apply silent_not_none.
  intros l x e.
  destruct x; try (destruct (dict_of_iterable py _);
                   [intros [] | apply silent_fail; discriminate]).
  intros [].
Qed.

Lemma silent_literal (choices : list string) :
  silent_on MissingError (t_literal choices).
Proof.
  unfold t_literal. apply silent_not_none.
  intros l x e. destruct x; try (apply silent_fail; discriminate).
  destruct (str_in s choices); [intros [] | apply silent_fail; discriminate].
Qed.

Lemma silent_str (py : Builtins) : silent_on MissingError (t_str py).
Proof. apply silent_not_none, silent_apply. discriminate. Qed.

Lemma silent_int (py : Builtins) : silent_on MissingError (t_int py).
Proof. apply silent_not_none, silent_apply. discriminate. Qed.

Lemma silent_bool : silent_on MissingError t_bool.
Proof. apply silent_not_none, silent_apply. discriminate. Qed.

Lemma silent_Include : silent_on MissingError Include.
Proof. apply silent_list, silent_literal. Qed.

Lemma silent_CollectionMetadata (py : Builtins) :
  silent_on MissingError (CollectionMetadata py).
Proof. apply silent_dict. Qed.

Create HintDb silent.

#[local] Hint Resolve silent_any silent_optional silent_list silent_dict
  silent_str silent_int silent_bool silent_Include silent_CollectionMetadata
  : silent.

(** A field reports "field required" only when it is declared with [...]
    and its key is absent, and then at its own name. *)
Lemma Field_missing {A} (d : default A) (name : string) (v : validator A)
    (p : dict) (e : error) :
  silent_on MissingError v ->
  In e (errors_of (Field d name v p)) -> snd e = MissingError ->
  d = Required /\ dict_get name p = None /\ fst e = [LName name].
Proof.
  intros Hv. unfold Field.
  destruct (dict_get name p) as [x |].
  - intros He Hk. now apply Hv in He.
  - destruct d; simpl; [| intros []].
    intros [<- | []] _. auto.
Qed.

Lemma Field_required_absent {A} (name : string) (v : validator A) (p : dict) :
  dict_get name p = None ->
  errors_of (Field Required name v p) = [([LName name], MissingError)].
Proof. intros H. unfold Field. now rewrite H. Qed.

(** X2: "field required" is reported for [ids] of Update, for
    [query_embeddings] of Query and for [name] of CreateCollection, exactly
    when the payload lacks the key, and for nothing else: Add, Get, Delete
    and UpdateCollection never report it. *)
Theorem missing_error_iff_required_absent (py : Builtins) (c : call)
    (e : error) :
  (In e (errors_of (validate_call py c)) /\ snd e = MissingError) <->
  (exists f, In f (required_fields c) /\ dict_get f (payload c) = None /\
             e = ([LName f], MissingError)).
Proof.
  split.
  - intros [He Hk].
    destruct c as [p | p | p | p | p | p | p]; simpl in He;
      rewrite rmap_errors in He;
      [ unfold AddEmbedding.parse in He
      | unfold UpdateEmbedding.parse in He
      | unfold QueryEmbedding.parse in He
      | unfold GetEmbedding.parse in He
      | unfold DeleteEmbedding.parse in He
      | unfold CreateCollection.parse in He
      | unfold UpdateCollection.parse in He ];
      field_errors_in He;
      repeat match type of He with
             | _ \/ _ => destruct He as [He | He]
             end;
      (apply Field_missing in He; [| auto 6 with silent | exact Hk]);
      destruct He as (Hd & Hnone & Hloc); try discriminate Hd;
      match type of Hnone with
      | dict_get ?n _ = None =>
          exists n; split; [in_list |]; split; [exact Hnone |];
          rewrite (surjective_pairing e), Hloc, Hk; reflexivity
      end.
  - intros (f & Hf & Hnone & ->). split; [| reflexivity].
    destruct c as [p | p | p | p | p | p | p]; simpl in Hf, Hnone;
      try (destruct Hf as [<- | []]); try (destruct Hf as []);
      simpl; rewrite rmap_errors;
      [ unfold UpdateEmbedding.parse
      | unfold QueryEmbedding.parse
      | unfold CreateCollection.parse ];
      field_errors; rewrite Field_required_absent by exact Hnone;
      simpl; tauto.
Qed.

Lemma missing_error_iff_required_absent_witness :
  (forall py : Builtins,
     exists f,
       In f (required_fields (QueryCall [(VStr "n_results", VInt 5)])) /\
       dict_get f (payload (QueryCall [(VStr "n_results", VInt 5)])) = None /\
       ([LName "query_embeddings"], MissingError) = ([LName f], MissingError))
  /\
  (forall py,
     In ([LName "query_embeddings"], MissingError)
        (errors_of (validate_call py (QueryCall [(VStr "n_results", VInt 5)])))
     /\ snd ([LName "query_embeddings"], MissingError) = MissingError).
Proof.
  assert (H : exists f,
            In f (required_fields (QueryCall [(VStr "n_results", VInt 5)])) /\
            dict_get f (payload (QueryCall [(VStr "n_results", VInt 5)]))
              = None /\
            ([LName "query_embeddings"], MissingError)
              = ([LName f], MissingError)).
  { exists "query_embeddings". simpl. auto. }
  split; intros py; [exact H |].
  exact (proj2 (missing_error_iff_required_absent py
                  (QueryCall [(VStr "n_results", VInt 5)])
                  ([LName "query_embeddings"], MissingError)) H).
Defined.

(** ** Null and absent *)




(** A field that does not allow [None] reports a null at its own name. *)
Lemma Field_null_refused {A} (d : default A) (name : string)
    (v : validator A) (p : dict) :
  dict_get name p = Some VNone ->
  errors_of (Field d name (not_none v) p) =
  [([LName name], NoneIsNotAllowedError)].
Proof. intros H. unfold Field. now rewrite H. Qed.

(** X4: a null is refused, with "none is not an allowed value" at the
    field's name, for the fields declared without [Optional] and with a
    default other than [None]: [n_results] and [query_embeddings] of Query,
    [ids] of Update, [name] and [get_or_create] of CreateCollection. *)
Theorem null_refused (py : Builtins) (p : dict) :
  (dict_get "n_results" p = Some VNone ->
   In ([LName "n_results"], NoneIsNotAllowedError)
      (errors_of (QueryEmbedding.parse py p))) /\
  (dict_get "query_embeddings" p = Some VNone ->
   In ([LName "query_embeddings"], NoneIsNotAllowedError)
      (errors_of (QueryEmbedding.parse py p))) /\
  (dict_get "ids" p = Some VNone ->
   In ([LName "ids"], NoneIsNotAllowedError)
      (errors_of (UpdateEmbedding.parse py p))) /\
  (dict_get "name" p = Some VNone ->
   In ([LName "name"], NoneIsNotAllowedError)
      (errors_of (CreateCollection.parse py p))) /\
  (dict_get "get_or_create" p = Some VNone ->
   In ([LName "get_or_create"], NoneIsNotAllowedError)
      (errors_of (CreateCollection.parse py p))).
Proof.
  repeat split; intros Hnull.
  - unfold QueryEmbedding.parse, t_int. field_errors.
    rewrite Field_null_refused by exact Hnull. simpl. tauto.
  - unfold QueryEmbedding.parse, t_list. field_errors.
    rewrite Field_null_refused by exact Hnull. simpl. tauto.
  - unfold UpdateEmbedding.parse. unfold t_list at 4. field_errors.
    rewrite Field_null_refused by exact Hnull. simpl. tauto.
  - unfold CreateCollection.parse, t_str. field_errors.
    rewrite Field_null_refused by exact Hnull. simpl. tauto.
  - unfold CreateCollection.parse, t_bool. field_errors.
    rewrite Field_null_refused by exact Hnull. simpl. tauto.
Qed.

Lemma null_refused_witness :
  dict_get "n_results"
    [(VStr "query_embeddings", VList []); (VStr "n_results", VNone)]
    = Some VNone /\
  (forall py,
     In ([LName "n_results"], NoneIsNotAllowedError)
        (errors_of (QueryEmbedding.parse py
                      [(VStr "query_embeddings", VList []);
                       (VStr "n_results", VNone)]))).
Proof.
  split; [reflexivity |]. intros py.
  exact (proj1 (null_refused py
                  [(VStr "query_embeddings", VList []);
                   (VStr "n_results", VNone)]) eq_refl).
Defined.

(** ** Defaults and bounds of the remaining fields *)

(** X5: a CreateCollection payload without [get_or_create] parses to what
    the same payload with [get_or_create] set to false parses to, request or
    errors alike. *)
Theorem get_or_create_default (py : Builtins) (p : dict) :
  dict_get "get_or_create" p = None ->
  CreateCollection.parse py (dict_set "get_or_create" (VBool false) p) =
  CreateCollection.parse py p.
Proof.
  intros Habsent. unfold CreateCollection.parse.
  rewrite Field_set_same. repeat set_other.
  now rewrite (@Field_absent _ _ _ _ _ Habsent).
Qed.

Lemma get_or_create_default_witness :
  dict_get "get_or_create" [(VStr "name", VStr "docs")] = None /\
  (forall py,
     CreateCollection.parse py
       (dict_set "get_or_create" (VBool false) [(VStr "name", VStr "docs")]) =
     CreateCollection.parse py [(VStr "name", VStr "docs")]) /\
  (forall py,
     CreateCollection.parse py [(VStr "name", VStr "docs")] =
     Ok {| CreateCollection.name := "docs";
           CreateCollection.metadata := None;
           CreateCollection.get_or_create := false |}).
Proof.
  split; [reflexivity |].
  split; intros py; [| reflexivity].
  exact (get_or_create_default py [(VStr "name", VStr "docs")] eq_refl).
Defined.

(** X6: [n_results] carries no bound.  An integer of any sign put for it in
    a valid Query request gives a valid request that holds this integer. *)
Theorem n_results_any_sign (py : Builtins) (p : dict)
    (r : QueryEmbedding.t) (z : Z) :
  QueryEmbedding.parse py p = Ok r ->
  QueryEmbedding.parse py (dict_set "n_results" (VInt z) p) =
  Ok {| QueryEmbedding.where_ := QueryEmbedding.where_ r;
        QueryEmbedding.where_document := QueryEmbedding.where_document r;
        QueryEmbedding.query_embeddings := QueryEmbedding.query_embeddings r;
        QueryEmbedding.n_results := z;
        QueryEmbedding.include := QueryEmbedding.include r |}.
Proof.
  intros Hr. unfold QueryEmbedding.parse in *. fields Hr.
  rewrite Field_set_same. repeat set_other.
  rewrite Ha3, Ha2, Ha1, Ha. reflexivity.
Qed.

Lemma n_results_any_sign_witness :
  (forall py,
     QueryEmbedding.parse py [(VStr "query_embeddings", VList [])] =
     Ok {| QueryEmbedding.where_ := None;
           QueryEmbedding.where_document := None;
           QueryEmbedding.query_embeddings := [];
           QueryEmbedding.n_results := 10;
           QueryEmbedding.include := ["metadatas"; "documents"; "distances"] |})
  /\
  (forall py,
     QueryEmbedding.parse py
       (dict_set "n_results" (VInt (-3))
          [(VStr "query_embeddings", VList [])]) =
     Ok {| QueryEmbedding.where_ := None;
           QueryEmbedding.where_document := None;
           QueryEmbedding.query_embeddings := [];
           QueryEmbedding.n_results := (-3);
           QueryEmbedding.include := ["metadatas"; "documents"; "distances"] |}).
Proof.
  split; intros py; [reflexivity |].
  exact (n_results_any_sign py [(VStr "query_embeddings", VList [])] (-3)
           eq_refl).
Defined.

(** ** Filters and ids *)

(** X7: a mapping given as [where] or [where_document] is not looked into.
    Whatever its items, put in a valid Query, Get or Delete request it gives
    a valid request that holds the mapping unchanged. *)
Theorem filters_kept_as_given (py : Builtins) (p : dict) (d : dict) :
  (forall r, QueryEmbedding.parse py p = Ok r ->
     QueryEmbedding.parse py (dict_set "where" (VDict d) p) =
       Ok {| QueryEmbedding.where_ := Some d;
             QueryEmbedding.where_document := QueryEmbedding.where_document r;
             QueryEmbedding.query_embeddings :=
               QueryEmbedding.query_embeddings r;
             QueryEmbedding.n_results := QueryEmbedding.n_results r;
             QueryEmbedding.include := QueryEmbedding.include r |} /\
     QueryEmbedding.parse py (dict_set "where_document" (VDict d) p) =
       Ok {| QueryEmbedding.where_ := QueryEmbedding.where_ r;
             QueryEmbedding.where_document := Some d;
             QueryEmbedding.query_embeddings :=
               QueryEmbedding.query_embeddings r;
             QueryEmbedding.n_results := QueryEmbedding.n_results r;
             QueryEmbedding.include := QueryEmbedding.include r |}) /\
  (forall r, GetEmbedding.parse py p = Ok r ->
     GetEmbedding.parse py (dict_set "where" (VDict d) p) =
       Ok {| GetEmbedding.ids := GetEmbedding.ids r;
             GetEmbedding.where_ := Some d;
             GetEmbedding.where_document := GetEmbedding.where_document r;
             GetEmbedding.sort := GetEmbedding.sort r;
             GetEmbedding.limit := GetEmbedding.limit r;
             GetEmbedding.offset := GetEmbedding.offset r;
             GetEmbedding.include := GetEmbedding.include r |} /\
     GetEmbedding.parse py (dict_set "where_document" (VDict d) p) =
       Ok {| GetEmbedding.ids := GetEmbedding.ids r;
             GetEmbedding.where_ := GetEmbedding.where_ r;
             GetEmbedding.where_document := Some d;
             GetEmbedding.sort := GetEmbedding.sort r;
             GetEmbedding.limit := GetEmbedding.limit r;
             GetEmbedding.offset := GetEmbedding.offset r;
             GetEmbedding.include := GetEmbedding.include r |}) /\
  (forall r, DeleteEmbedding.parse py p = Ok r ->
     DeleteEmbedding.parse py (dict_set "where" (VDict d) p) =
       Ok {| DeleteEmbedding.ids := DeleteEmbedding.ids r;
             DeleteEmbedding.where_ := Some d;
             DeleteEmbedding.where_document :=
               DeleteEmbedding.where_document r |} /\
     DeleteEmbedding.parse py (dict_set "where_document" (VDict d) p) =
       Ok {| DeleteEmbedding.ids := DeleteEmbedding.ids r;
             DeleteEmbedding.where_ := DeleteEmbedding.where_ r;
             DeleteEmbedding.where_document := Some d |}).
Proof.
  repeat apply conj; intros r Hr.
  - unfold QueryEmbedding.parse in *. fields Hr. split.
    + rewrite Field_set_same. repeat set_other.
      rewrite Ha2, Ha1, Ha0, Ha. reflexivity.
    + rewrite Field_set_same. repeat set_other.
      rewrite Ha3, Ha1, Ha0, Ha. reflexivity.
  - unfold GetEmbedding.parse in *. fields Hr. split.
    + rewrite Field_set_same. repeat set_other.
      rewrite Ha5, Ha3, Ha2, Ha1, Ha0, Ha. reflexivity.
    + rewrite Field_set_same. repeat set_other.
      rewrite Ha5, Ha4, Ha2, Ha1, Ha0, Ha. reflexivity.
  - unfold DeleteEmbedding.parse in *. fields Hr. split.
    + rewrite Field_set_same. repeat set_other.
      rewrite Ha1, Ha. reflexivity.
    + rewrite Field_set_same. repeat set_other.
      rewrite Ha1, Ha0. reflexivity.
Qed.

Lemma filters_kept_as_given_witness :
  (forall py,
     DeleteEmbedding.parse py [(VStr "ids", VList [VStr "a"])] =
     Ok {| DeleteEmbedding.ids := Some ["a"];
           DeleteEmbedding.where_ := None;
           DeleteEmbedding.where_document := None |}) /\
  (forall py,
     DeleteEmbedding.parse py
       (dict_set "where"
          (VDict [(VStr "$nonsense", VList [VNone; VDict []]);
                  (VStr "price", VFloat 4.5)])
          [(VStr "ids", VList [VStr "a"])]) =
     Ok {| DeleteEmbedding.ids := Some ["a"];
           DeleteEmbedding.where_ :=
             Some [(VStr "$nonsense", VList [VNone; VDict []]);
                   (VStr "price", VFloat 4.5)];
           DeleteEmbedding.where_document := None |}).
Proof.
  split; intros py; [reflexivity |].
  exact (proj1 (proj2 (proj2 (filters_kept_as_given py
                  [(VStr "ids", VList [VStr "a"])]
                  [(VStr "$nonsense", VList [VNone; VDict []]);
                   (VStr "price", VFloat 4.5)])) _ eq_refl)).
Defined.

Lemma validate_items_strs (py : Builtins) (l : loc) (ss : list string) :
  forall i, validate_items (t_str py) l i (map VStr ss) = Ok ss.
Proof.
  induction ss as [| s ss IH]; intros i; simpl; [reflexivity |].
  now rewrite IH.
Qed.

(** X8: ids are taken as they come.  A list of strings put for [ids] in a
    valid Add, Update, Get or Delete request gives a valid request that holds
    the same strings in the same order, repeated ones and empty ones
    included. *)
Theorem ids_kept_as_given (py : Builtins) (p : dict) (ss : list string) :
  (forall r, AddEmbedding.parse py p = Ok r ->
     AddEmbedding.parse py (dict_set "ids" (VList (map VStr ss)) p) =
     Ok {| AddEmbedding.embeddings := AddEmbedding.embeddings r;
           AddEmbedding.metadatas := AddEmbedding.metadatas r;
           AddEmbedding.documents := AddEmbedding.documents r;
           AddEmbedding.ids := Some ss |}) /\
  (forall r, UpdateEmbedding.parse py p = Ok r ->
     UpdateEmbedding.parse py (dict_set "ids" (VList (map VStr ss)) p) =
     Ok {| UpdateEmbedding.embeddings := UpdateEmbedding.embeddings r;
           UpdateEmbedding.metadatas := UpdateEmbedding.metadatas r;
           UpdateEmbedding.documents := UpdateEmbedding.documents r;
           UpdateEmbedding.ids := ss |}) /\
  (forall r, GetEmbedding.parse py p = Ok r ->
     GetEmbedding.parse py (dict_set "ids" (VList (map VStr ss)) p) =
     Ok {| GetEmbedding.ids := Some ss;
           GetEmbedding.where_ := GetEmbedding.where_ r;
           GetEmbedding.where_document := GetEmbedding.where_document r;
           GetEmbedding.sort := GetEmbedding.sort r;
           GetEmbedding.limit := GetEmbedding.limit r;
           GetEmbedding.offset := GetEmbedding.offset r;
           GetEmbedding.include := GetEmbedding.include r |}) /\
  (forall r, DeleteEmbedding.parse py p = Ok r ->
     DeleteEmbedding.parse py (dict_set "ids" (VList (map VStr ss)) p) =
     Ok {| DeleteEmbedding.ids := Some ss;
           DeleteEmbedding.where_ := DeleteEmbedding.where_ r;
           DeleteEmbedding.where_document :=
             DeleteEmbedding.where_document r |}).
Proof.
  repeat apply conj; intros r Hr.
  - unfold AddEmbedding.parse in *. fields Hr.
    rewrite Field_set_same. repeat set_other.
    rewrite (optional_list_ok _ _ _ (validate_items_strs py _ ss 0)).
    rewrite Ha2, Ha1, Ha0. reflexivity.
  - unfold UpdateEmbedding.parse in *. fields Hr.
    rewrite Field_set_same. repeat set_other.
    unfold t_list at 4. unfold not_none at 1.
    rewrite validate_items_strs.
    rewrite Ha2, Ha1, Ha0. reflexivity.
  - unfold GetEmbedding.parse in *. fields Hr.
    rewrite Field_set_same. repeat set_other.
    rewrite (optional_list_ok _ _ _ (validate_items_strs py _ ss 0)).
    rewrite Ha4, Ha3, Ha2, Ha1, Ha0, Ha. reflexivity.
  - unfold DeleteEmbedding.parse in *. fields Hr.
    rewrite Field_set_same. repeat set_other.
    rewrite (optional_list_ok _ _ _ (validate_items_strs py _ ss 0)).
    rewrite Ha0, Ha. reflexivity.
Qed.

Lemma ids_kept_as_given_witness :
  (forall py,
     UpdateEmbedding.parse py [(VStr "ids", VList [VStr "z"])] =
     Ok {| UpdateEmbedding.embeddings := None;
           UpdateEmbedding.metadatas := None;
           UpdateEmbedding.documents := None;
           UpdateEmbedding.ids := ["z"] |}) /\
  (forall py,
     UpdateEmbedding.parse py
       (dict_set "ids" (VList (map VStr ["b"; "a"; "b"; ""]))
          [(VStr "ids", VList [VStr "z"])]) =
     Ok {| UpdateEmbedding.embeddings := None;
           UpdateEmbedding.metadatas := None;
           UpdateEmbedding.documents := None;
           UpdateEmbedding.ids := ["b"; "a"; "b"; ""] |}).
Proof.
  split; intros py; [reflexivity |].
  exact (proj1 (proj2 (ids_kept_as_given py [(VStr "ids", VList [VStr "z"])]
                         ["b"; "a"; "b"; ""])) _ eq_refl).
Defined.

(** ** Add beside Update *)

Lemma optional_not_none {A} (v : validator A) (l : loc) (x : value) :
  x <> VNone -> t_optional v l x = Some <$> v l x.
Proof. intros Hx. destruct x; try reflexivity. now elim Hx. Qed.

(** X9: on a payload that gives a non-null [ids], Add and Update validate
    alike: they report the same errors, and when one parses so does the
    other, to the same [embeddings], [metadatas], [documents] and [ids]. *)
Theorem add_update_agree (py : Builtins) (p : dict) (x : value) :
  dict_get "ids" p = Some x -> x <> VNone ->
  errors_of (AddEmbedding.parse py p) = errors_of (UpdateEmbedding.parse py p)
  /\
  (forall ru, UpdateEmbedding.parse py p = Ok ru ->
     AddEmbedding.parse py p =
     Ok {| AddEmbedding.embeddings := UpdateEmbedding.embeddings ru;
           AddEmbedding.metadatas := UpdateEmbedding.metadatas ru;
           AddEmbedding.documents := UpdateEmbedding.documents ru;
           AddEmbedding.ids := Some (UpdateEmbedding.ids ru) |}) /\
  (forall ra, AddEmbedding.parse py p = Ok ra ->
     exists ss,
       AddEmbedding.ids ra = Some ss /\
       UpdateEmbedding.parse py p =
       Ok {| UpdateEmbedding.embeddings := AddEmbedding.embeddings ra;
             UpdateEmbedding.metadatas := AddEmbedding.metadatas ra;
             UpdateEmbedding.documents := AddEmbedding.documents ra;
             UpdateEmbedding.ids := ss |}).
Proof.
  intros Hids Hx.
  unfold AddEmbedding.parse, UpdateEmbedding.parse.
  assert (E : Field (Default None) "ids" (t_optional (t_list (t_str py))) p =
              Some <$> Field Required "ids" (t_list (t_str py)) p).
  { unfold Field. rewrite Hids. now apply optional_not_none. }
  rewrite E.
  destruct (Field (Default None) "embeddings" _ p) as [es | e1];
    destruct (Field (Default None) "metadatas" _ p) as [ms | e2];
    destruct (Field (Default None) "documents" _ p) as [ds | e3];
    destruct (Field Required "ids" _ p) as [ss | e4]; simpl;
    (split; [reflexivity |]); split; intros r Hr; try discriminate Hr.
  - inversion Hr; subst. reflexivity.
  - inversion Hr; subst. simpl. eauto.
Qed.

Lemma add_update_agree_witness :
  dict_get "ids"
    [(VStr "ids", VList [VStr "a"; VList []]); (VStr "documents", VInt 3)]
    = Some (VList [VStr "a"; VList []]) /\
  VList [VStr "a"; VList []] <> VNone /\
  (forall py,
     errors_of (AddEmbedding.parse py
                  [(VStr "ids", VList [VStr "a"; VList []]);
                   (VStr "documents", VInt 3)]) =
     errors_of (UpdateEmbedding.parse py
                  [(VStr "ids", VList [VStr "a"; VList []]);
                   (VStr "documents", VInt 3)])) /\
  (forall py,
     errors_of (UpdateEmbedding.parse py
                  [(VStr "ids", VList [VStr "a"; VList []]);
                   (VStr "documents", VInt 3)]) =
     [([LName "documents"], ListError);
      ([LName "ids"; LIndex 1], StrError)]).
Proof.
  split; [reflexivity |]. split; [discriminate |].
  split; intros py; [| reflexivity].
  refine (proj1 (add_update_agree py
                   [(VStr "ids", VList [VStr "a"; VList []]);
                    (VStr "documents", VInt 3)] eq_refl _)).
  discriminate.
Defined.

(** ** Errors inside [ids] *)

(** The error of an element is an error of the list. *)
Lemma items_error_at {A} (elem : validator A) (l : loc) (xs : list value) :
  forall i0 i x e,
    nth_error xs i = Some x ->
    In e (errors_of (elem (l ++ [LIndex (i0 + i)]) x)) ->
    In e (errors_of (validate_items elem l i0 xs)).
Proof.
  induction xs as [| y xs IH]; intros i0 [| i] x e Hnth He; simpl in *;
    try discriminate; rewrite errors_rap, rmap_errors, in_app_iff.
  - inversion Hnth; subst. left. now rewrite Nat.add_0_r in He.
  - right. apply (IH (S i0) i x e Hnth).
    now rewrite Nat.add_succ_comm.
Qed.

Lemma str_element_error (py : Builtins) (l : loc) (x : value) :
  str_validator py x = None ->
  errors_of (t_str py l x) = [(l, ids_element_error x)].
Proof. destruct x; simpl; intros H; try discriminate H; reflexivity. Qed.

Lemma ids_list_error_at (py : Builtins) (xs : list value) (i : nat)
    (x : value) :
  nth_error xs i = Some x -> str_validator py x = None ->
  In ([LName "ids"; LIndex i], ids_element_error x)
     (errors_of (t_list (t_str py) [LName "ids"] (VList xs))).
Proof.
  intros Hnth Hx. simpl.
  eapply items_error_at with (i0 := 0) (i := i); [exact Hnth |].
  rewrite str_element_error by exact Hx. simpl. auto.
Qed.

(** X10: an element of [ids] that is not a string or a number is reported
    at its position in the list: at [ids], [i] with "none is not an allowed
    value" for a null and "str type expected" for a list or a mapping, by
    Update, Add, Get and Delete alike. *)
Theorem ids_error_at_index (py : Builtins) (p : dict) (xs : list value)
    (i : nat) (x : value) :
  nth_error xs i = Some x -> str_validator py x = None ->
  In ([LName "ids"; LIndex i], ids_element_error x)
     (errors_of (UpdateEmbedding.parse py (dict_set "ids" (VList xs) p))) /\
  In ([LName "ids"; LIndex i], ids_element_error x)
     (errors_of (AddEmbedding.parse py (dict_set "ids" (VList xs) p))) /\
  In ([LName "ids"; LIndex i], ids_element_error x)
     (errors_of (GetEmbedding.parse py (dict_set "ids" (VList xs) p))) /\
  In ([LName "ids"; LIndex i], ids_element_error x)
     (errors_of (DeleteEmbedding.parse py (dict_set "ids" (VList xs) p))).
Proof.
  intros Hnth Hx.
  pose proof (@ids_list_error_at py xs i x Hnth Hx) as Hin.
  assert (Hopt : In ([LName "ids"; LIndex i], ids_element_error x)
                    (errors_of (t_optional (t_list (t_str py)) [LName "ids"]
                                  (VList xs)))).
  { rewrite optional_not_none by discriminate. now rewrite rmap_errors. }
  repeat split.
  - unfold UpdateEmbedding.parse. field_errors.
    rewrite Field_set_same. tauto.
  - unfold AddEmbedding.parse. field_errors.
    rewrite Field_set_same. tauto.
  - unfold GetEmbedding.parse. field_errors.
    rewrite Field_set_same. tauto.
  - unfold DeleteEmbedding.parse. field_errors.
    rewrite Field_set_same. tauto.
Qed.

Lemma ids_error_at_index_witness :
  nth_error [VStr "a"; VInt 2; VDict []] 2 = Some (VDict []) /\
  (forall py, str_validator py (VDict []) = None) /\
  (forall py,
     In ([LName "ids"; LIndex 2], StrError)
        (errors_of (UpdateEmbedding.parse py
                      (dict_set "ids" (VList [VStr "a"; VInt 2; VDict []])
                         [(VStr "documents", VList [])])))).
Proof.
  split; [reflexivity |]. split; intros py; [reflexivity |].
  exact (proj1 (ids_error_at_index py [(VStr "documents", VList [])]
                  [VStr "a"; VInt 2; VDict []] 2 eq_refl eq_refl)).
Defined.

(** ** Keys and fields *)






